(** * CollabSphere — the Project Feed page ([src/pages/ProjectFeed.tsx])

    A shallow embedding of the stateful logic of the [ProjectFeed] React
    component: the view filter ([filteredProjects]), the project loader
    ([fetchProjects], [handleSearch]) and the effect that resolves the
    signed-in user's college ([fetchCollege]); then the click handlers of
    the buttons and the choice of what is rendered below the search bar
    (spinner, message or grid of cards).

    Conventions.
    - TypeScript strings are [string]; [===] on strings is [String.eqb].
    - [String.prototype.includes] is written out ([includes]);
      [String.prototype.toLowerCase] is a built-in of the host and is taken
      as a parameter of the view filter ([ascii_toLowerCase] is a concrete
      instance, exact on ASCII text, used to run the examples).
    - [useState] cells are the fields of [State]; a setter is a state update.
    - An [async] function is run to completion against an [Env] that says
      how each Firestore read settles (resolves with a snapshot, or rejects);
      [try]/[catch]/[finally] is a combinator of the small monad [M]. *)

From Stdlib Require Import String Ascii List Bool ZArith.
Import ListNotations.
Local Open Scope string_scope.
Local Open Scope list_scope.

Set Implicit Arguments.

(* ------------------------------------------------------------------ *)
(** ** Host strings *)

Module JsString.

(** [s.includes(t)]: [t] occurs in [s] as a contiguous run. *)
Fixpoint includes (s t : string) : bool :=
  String.prefix t s ||
  match s with
  | EmptyString => false
  | String _ s' => includes s' t
  end.

(** Lower-casing of one ASCII letter; every other character is kept. *)
Definition lower_ascii (c : ascii) : ascii :=
  let n := nat_of_ascii c in
  if (65 <=? n)%nat && (n <=? 90)%nat then ascii_of_nat (n + 32) else c.

(** [s.toLowerCase()] on ASCII text. *)
Fixpoint ascii_toLowerCase (s : string) : string :=
  match s with
  | EmptyString => EmptyString
  | String c s' => String (lower_ascii c) (ascii_toLowerCase s')
  end.

End JsString.

(* ------------------------------------------------------------------ *)
(** ** Data model *)

(** [interface Project]. *)
Record Project : Type := mkProject {
  id : string;
  title : string;
  description : string;
  skills : list string;
  teamSize : string;
  duration : string;
  isWomenLed : bool;
  creatorName : string;
  creatorId : string;
  college : string;
  createdAt : string;
  applicants : Z
}.

(** The type of the [filter] cell: ['all' | 'women']. *)
Inductive Filter : Type := all | women.

Definition Filter_eqb (a b : Filter) : bool :=
  match a, b with
  | all, all | women, women => true
  | _, _ => false
  end.

(** Truthiness of a [string | null]: [null] and the empty string are falsy. *)
Definition truthy (v : option string) : bool :=
  match v with
  | None => false
  | Some s => negb (s =? "")
  end.

(** [x === v] for a string [x] and a [string | null] [v]. *)
Definition strict_eq (x : string) (v : option string) : bool :=
  match v with
  | None => false
  | Some s => x =? s
  end.

(* ------------------------------------------------------------------ *)
(** ** View filter *)

Section ViewFilter.

Variable toLowerCase : string -> string.

(** The last [return] of the callback: the search term against title,
    description and every skill, all lower-cased. *)
Definition matchesSearch (searchTerm : string) (project : Project) : bool :=
  JsString.includes (toLowerCase (title project)) (toLowerCase searchTerm) ||
  JsString.includes (toLowerCase (description project)) (toLowerCase searchTerm) ||
  existsb (fun skill => JsString.includes (toLowerCase skill) (toLowerCase searchTerm))
          (skills project).

(** The callback given to [projects.filter]; the four [return]s in the
    order of the source. *)
Definition keep (searchTerm : string) (filter : Filter) (showMyCollege : bool)
           (userCollege : option string) (project : Project) : bool :=
  if showMyCollege && truthy userCollege && Filter_eqb filter women then
    strict_eq (college project) userCollege && isWomenLed project
  else if showMyCollege && truthy userCollege then
    strict_eq (college project) userCollege
  else if Filter_eqb filter women then
    isWomenLed project
  else
    matchesSearch searchTerm project.

(** [filteredProjects], as a function of the five values it reads. *)
Definition visible (projects : list Project) (searchTerm : string) (filter : Filter)
           (showMyCollege : bool) (userCollege : option string) : list Project :=
  List.filter (keep searchTerm filter showMyCollege userCollege) projects.

End ViewFilter.

(** A subsequence: elements dropped, order kept. *)
Inductive Subseq {A : Type} : list A -> list A -> Prop :=
| Subseq_nil : Subseq [] []
| Subseq_skip : forall x l1 l2, Subseq l1 l2 -> Subseq l1 (x :: l2)
| Subseq_take : forall x l1 l2, Subseq l1 l2 -> Subseq (x :: l1) (x :: l2).

(* ------------------------------------------------------------------ *)
(** ** The document store, as the page uses it *)

(** A value given to [where]. *)
Inductive FieldValue : Type :=
| VBool (b : bool)
| VString (s : string)
| VNumber (n : Z).

(** [where(fieldPath, opStr, value)]. *)
Record QueryConstraint : Type := where_ {
  fieldPath : string;
  opStr : string;
  value : FieldValue
}.

(** [collection(db, path)]. *)
Record CollectionReference : Type := collection { path : string }.

(** [query(ref, ...constraints)]. *)
Record Query : Type := query {
  source : CollectionReference;
  constraints_of : list QueryConstraint
}.

(** [doc(db, path, id)]. *)
Record DocumentReference : Type := doc { doc_path : string; doc_key : string }.

(** What [doc.data()] holds for a project document.  The source reads it as
    [any] and asserts the merged object to be a [Project]; the fields are
    those of the interface, and the data may carry a field [id] of its own. *)
Record DocumentData : Type := mkData {
  d_id : option string;
  d_title : string;
  d_description : string;
  d_skills : list string;
  d_teamSize : string;
  d_duration : string;
  d_isWomenLed : bool;
  d_creatorName : string;
  d_creatorId : string;
  d_college : string;
  d_createdAt : string;
  d_applicants : Z
}.

(** An element of [querySnapshot.docs]: [{ id: string; data: () => any }]. *)
Record QueryDocumentSnapshot : Type := mkDoc {
  doc_id : string;
  doc_data : DocumentData
}.

Record QuerySnapshot : Type := mkSnapshot { docs : list QueryDocumentSnapshot }.

(** What [profileSnap.data()] holds, as far as the page reads it: the field
    [college], a string, or [None] when the record has no such field. *)
Record ProfileData : Type := mkProfile { p_college : option string }.

(** The result of [getDoc]: [None] when [exists()] is false. *)
Definition DocumentSnapshot : Type := option ProfileData.

(** A thrown value or rejection reason. *)
Definition Exn : Type := string.

(** How a promise settles. *)
Inductive Settled (A : Type) : Type :=
| Fulfilled (a : A)
| Rejected (e : Exn).
Arguments Rejected {A} e.

(** The store at the time of a call: how each read settles. *)
Record Env : Type := mkEnv {
  getDocs : Query -> Settled QuerySnapshot;
  getDoc : DocumentReference -> Settled DocumentSnapshot
}.

(** [currentUser] of the auth context. *)
Record User : Type := mkUser { uid : string }.

(* ------------------------------------------------------------------ *)
(** ** Component state and effects *)

(** The [useState] cells of [ProjectFeed]. *)
Record State : Type := mkState {
  projects : list Project;
  loading : bool;
  searchTerm : string;
  filter : Filter;
  userCollege : option string;
  showMyCollege : bool
}.

(** The initial values given to [useState]. *)
Definition initialState : State :=
  mkState [] true "" all None false.

(** What a run does to the outside. *)
Inductive Effect : Type :=
| CallGetDocs (q : Query)
| CallGetDoc (r : DocumentReference)
| ConsoleError (msg : string) (e : Exn)
| AddToast (message type : string)
| UnhandledRejection (e : Exn).

(** A statement completes normally or throws. *)
Inductive Completion (A : Type) : Type :=
| Normal (a : A)
| Throw (e : Exn).
Arguments Throw {A} e.

(** Computations of the page: they read the store, update the cells, and
    leave a trace of effects; a throw keeps the updates made before it. *)
Definition M (A : Type) : Type :=
  Env -> State -> Completion A * State * list Effect.

Definition ret {A} (a : A) : M A :=
  fun _ s => (Normal a, s, []).

Definition bind {A B} (m : M A) (k : A -> M B) : M B :=
  fun env s =>
    match m env s with
    | (Normal a, s1, t1) =>
        match k a env s1 with
        | (c, s2, t2) => (c, s2, t1 ++ t2)
        end
    | (Throw e, s1, t1) => (Throw e, s1, t1)
    end.

Notation "x <- m ;; k" := (bind m (fun x => k))
  (at level 61, m at next level, right associativity).
Notation "m ;; k" := (bind m (fun _ => k))
  (at level 61, right associativity).

(** Reading a cell (the value the closure captured). *)
Definition read {A} (cell : State -> A) : M A :=
  fun _ s => (Normal (cell s), s, []).

Definition emit (e : Effect) : M unit :=
  fun _ s => (Normal tt, s, [e]).

Definition setProjects (v : list Project) : M unit :=
  fun _ s => (Normal tt,
              mkState v (loading s) (searchTerm s) (filter s) (userCollege s) (showMyCollege s),
              []).

Definition setLoading (v : bool) : M unit :=
  fun _ s => (Normal tt,
              mkState (projects s) v (searchTerm s) (filter s) (userCollege s) (showMyCollege s),
              []).

Definition setSearchTerm (v : string) : M unit :=
  fun _ s => (Normal tt,
              mkState (projects s) (loading s) v (filter s) (userCollege s) (showMyCollege s),
              []).

Definition setFilter (v : Filter) : M unit :=
  fun _ s => (Normal tt,
              mkState (projects s) (loading s) (searchTerm s) v (userCollege s) (showMyCollege s),
              []).

Definition setUserCollege (v : option string) : M unit :=
  fun _ s => (Normal tt,
              mkState (projects s) (loading s) (searchTerm s) (filter s) v (showMyCollege s),
              []).

Definition setShowMyCollege (v : bool) : M unit :=
  fun _ s => (Normal tt,
              mkState (projects s) (loading s) (searchTerm s) (filter s) (userCollege s) v,
              []).

(** [await p]: the fulfilled value, or the rejection thrown. *)
Definition await {A} (call : Effect) (p : Env -> Settled A) : M A :=
  fun env s =>
    match p env with
    | Fulfilled a => (Normal a, s, [call])
    | Rejected e => (Throw e, s, [call])
    end.

Definition await_getDocs (q : Query) : M QuerySnapshot :=
  await (CallGetDocs q) (fun env => getDocs env q).

Definition await_getDoc (r : DocumentReference) : M DocumentSnapshot :=
  await (CallGetDoc r) (fun env => getDoc env r).

(** [try { body } catch (error) { handler } finally { final }]. *)
Definition try_catch_finally {A} (body : M A) (handler : Exn -> M A) (final : M unit) : M A :=
  fun env s =>
    match body env s with
    | (c1, s1, t1) =>
        match (match c1 with
               | Normal a => (Normal a, s1, [])
               | Throw e => handler e env s1
               end) with
        | (c2, s2, t2) =>
            match final env s2 with
            | (Normal _, s3, t3) => (c2, s3, t1 ++ t2 ++ t3)
            | (Throw e, s3, t3) => (Throw e, s3, t1 ++ t2 ++ t3)
            end
        end
    end.

(** Calling an [async] function without awaiting it: a rejection is not
    seen by the caller. *)
Definition detach (m : M unit) : M unit :=
  fun env s =>
    match m env s with
    | (Normal _, s1, t1) => (Normal tt, s1, t1)
    | (Throw e, s1, t1) => (Normal tt, s1, t1 ++ [UnhandledRejection e])
    end.

Definition state_after {A} (m : M A) (env : Env) (s : State) : State :=
  snd (fst (m env s)).

Definition effects_of {A} (m : M A) (env : Env) (s : State) : list Effect :=
  snd (m env s).

Definition completion_of {A} (m : M A) (env : Env) (s : State) : Completion A :=
  fst (fst (m env s)).

(** The toasts of a trace, as (message, type). *)
Fixpoint toasts (t : list Effect) : list (string * string) :=
  match t with
  | [] => []
  | AddToast m ty :: t' => (m, ty) :: toasts t'
  | _ :: t' => toasts t'
  end.

(** The reads of the project collection in a trace. *)
Fixpoint requests (t : list Effect) : list Query :=
  match t with
  | [] => []
  | CallGetDocs q :: t' => q :: requests t'
  | _ :: t' => requests t'
  end.

(* ------------------------------------------------------------------ *)
(** ** Project loader *)

(** [{ id: doc.id, ...doc.data() }]: the spread comes second, so a field
    [id] of the data, when there is one, replaces [doc.id]. *)
Definition withId (doc_id : string) (data : DocumentData) : Project :=
  mkProject
    (match d_id data with Some i => i | None => doc_id end)
    (d_title data) (d_description data) (d_skills data) (d_teamSize data)
    (d_duration data) (d_isWomenLed data) (d_creatorName data)
    (d_creatorId data) (d_college data) (d_createdAt data) (d_applicants data).

(** The query built in the [try] block, from the value of [filter]. *)
Definition buildQuery (filter : Filter) : Query :=
  let projectQuery := collection "projects" in
  let constraints : list QueryConstraint := [] in
  let constraints :=
    if Filter_eqb filter women
    then constraints ++ [where_ "isWomenLed" "==" (VBool true)]
    else constraints in
  if (0 <? length constraints)%nat
  then query projectQuery constraints
  else query projectQuery [].

Definition fetchProjects : M unit :=
  filter <- read filter ;;
  try_catch_finally
    (setLoading true ;;
     let q := buildQuery filter in
     querySnapshot <- await_getDocs q ;;
     let projectData :=
       map (fun doc => withId (doc_id doc) (doc_data doc)) (docs querySnapshot) in
     setProjects projectData)
    (fun error =>
       emit (ConsoleError "Error fetching projects:" error) ;;
       emit (AddToast "Failed to load projects" "error"))
    (setLoading false).

Definition handleSearch : M unit :=
  fetchProjects.

(* ------------------------------------------------------------------ *)
(** ** Identity resolver *)

(** [a || b] on [string | undefined | null] operands. *)
Definition js_or (a b : option string) : option string :=
  if truthy a then a else b.

Definition fetchCollege (currentUser : User) : M unit :=
  let profileRef := doc "profiles" (uid currentUser) in
  profileSnap <- await_getDoc profileRef ;;
  match profileSnap with
  | Some data => setUserCollege (js_or (p_college data) None)
  | None => ret tt
  end.

(** The body of the effect with dependency [[currentUser]]. *)
Definition onCurrentUser (currentUser : option User) : M unit :=
  match currentUser with
  | Some u => detach (fetchCollege u)
  | None => setUserCollege None
  end.

(** The states the page can be in: the initial one, and those reached by
    the two effects and the event handlers, against any store. *)
Inductive reachable : State -> Prop :=
| reach_init : reachable initialState
| reach_user : forall env u s,
    reachable s -> reachable (state_after (onCurrentUser u) env s)
| reach_filter : forall env f s,
    reachable s -> reachable (state_after (setFilter f ;; detach fetchProjects) env s)
| reach_search : forall env s,
    reachable s -> reachable (state_after handleSearch env s)
| reach_input : forall env v s,
    reachable s -> reachable (state_after (setSearchTerm v) env s)
| reach_toggle : forall env b s,
    reachable s -> reachable (state_after (setShowMyCollege b) env s).

(** [filteredProjects], read from the cells. *)
Definition filteredProjects (toLowerCase : string -> string) (s : State) : list Project :=
  visible toLowerCase (projects s) (searchTerm s) (filter s) (showMyCollege s) (userCollege s).

(* ------------------------------------------------------------------ *)
(** ** Sample data *)

Module Sample.

Definition project1 : Project :=
  mkProject "1" "App" "" [] "" "" false "" "" "X" "" 0.

Definition project2 : Project :=
  mkProject "2" "Bot" "" [] "" "" true "" "" "Y" "" 0.

Definition feed : list Project := [project1; project2].

Definition data1 : DocumentData :=
  mkData None "App" "" [] "" "" false "" "" "X" "" 0.

Definition data2 : DocumentData :=
  mkData None "Bot" "" [] "" "" true "" "" "Y" "" 0.

(** A store whose reads all reject. *)
Definition offline : Env :=
  mkEnv (fun _ => Rejected "unavailable") (fun _ => Rejected "unavailable").

(** A store with two projects, and one profile, of user [u1]. *)
Definition online : Env :=
  mkEnv
    (fun q =>
       match constraints_of q with
       | [] => Fulfilled (mkSnapshot [mkDoc "1" data1; mkDoc "2" data2])
       | _ => Fulfilled (mkSnapshot [mkDoc "2" data2])
       end)
    (fun r =>
       if doc_key r =? "u1" then Fulfilled (Some (mkProfile (Some "X")))
       else if doc_key r =? "u2" then Fulfilled (Some (mkProfile (Some "")))
       else Fulfilled None).

(** The page after user [u1] was resolved, with the feed loaded. *)
Definition resolved : State :=
  mkState feed false "" all (Some "X") false.

End Sample.

(* ------------------------------------------------------------------ *)
(** ** Effects and event handlers of the page *)

(** The two [useEffect]s as they run on mount, in the order of the source. *)
Definition mount (currentUser : option User) : M unit :=
  onCurrentUser currentUser ;; detach fetchProjects.

(** A click on one of the two filter buttons: [setFilter(f)]; the effect
    with dependency [[filter]] then calls [fetchProjects()] when the cell
    changed. *)
Definition clickFilter (f : Filter) : M unit :=
  current <- read filter ;;
  setFilter f ;;
  if Filter_eqb current f then ret tt else detach fetchProjects.

(** [disabled={!currentUser || !userCollege}]. *)
Definition myCollegeDisabled (currentUser : option User) (s : State) : bool :=
  negb (match currentUser with Some _ => true | None => false end)
  || negb (truthy (userCollege s)).

(** [onClick={() => setShowMyCollege(false)}]. *)
Definition clickAllProjects : M unit :=
  setShowMyCollege false.

(** [onClick={() => setShowMyCollege(true)}], on a button that does not
    fire while it is disabled. *)
Definition clickMyCollege (currentUser : option User) : M unit :=
  disabled <- read (myCollegeDisabled currentUser) ;;
  if disabled then ret tt else setShowMyCollege true.

(** The reads of single documents in a trace. *)
Fixpoint document_reads (t : list Effect) : list DocumentReference :=
  match t with
  | [] => []
  | CallGetDoc r :: t' => r :: document_reads t'
  | _ :: t' => document_reads t'
  end.

(** The rejections nobody handled in a trace. *)
Fixpoint unhandled (t : list Effect) : list Exn :=
  match t with
  | [] => []
  | UnhandledRejection e :: t' => e :: unhandled t'
  | _ :: t' => unhandled t'
  end.

(* ------------------------------------------------------------------ *)
(** ** What is rendered *)

(** One card of the grid, as far as it depends on the project. *)
Record Card : Type := mkCard {
  card_key : string;
  card_className : string;
  card_title : string;
  card_womenLedTag : bool;
  card_description : string;
  card_skills : list (string * string);
  card_teamSize : string;
  card_duration : string;
  card_creator : string;
  card_college : string;
  card_link : string
}.

(** The element built for each project by [filteredProjects.map]. *)
Definition card (project : Project) : Card :=
  mkCard
    (id project)
    ("card hover:shadow-glow-sm transform hover:-translate-y-1 transition-all duration-300 "
     ++ (if isWomenLed project then "female-led" else ""))
    (title project)
    (isWomenLed project)
    (description project)
    (map (fun skill => (skill, skill)) (skills project))
    (teamSize project)
    (duration project)
    ("By " ++ creatorName project)
    (college project)
    ("/projects/" ++ id project).

(** The three alternatives below the search bar. *)
Inductive Body : Type :=
| Spinner
| Message (text : string)
| Grid (cards : list Card).

(** [loading ? ... : filteredProjects.length === 0 ? ... : ...]. *)
Definition body (toLowerCase : string -> string) (s : State) : Body :=
  if loading s then Spinner
  else if (List.length (filteredProjects toLowerCase s) =? 0)%nat then
    Message (if showMyCollege s
             then "No projects found from your college."
             else "No projects found.")
  else Grid (map card (filteredProjects toLowerCase s)).

(** [showMyCollege && !userCollege]: the notice about the missing college. *)
Definition warning (s : State) : bool :=
  showMyCollege s && negb (truthy (userCollege s)).

(* ------------------------------------------------------------------ *)
(** ** A store with a document that has a field [id] of its own *)

Module Clash.

(** The data of document "1": it has a field [id], "zz". *)
Definition data1 : DocumentData :=
  mkData (Some "zz") "App" "" [] "" "" false "" "" "X" "" 0.



End Clash.

(* ================================================================== *)
(** * Properties *)

(** ** Host strings and lists *)

Lemma includes_empty (s : string) : JsString.includes s "" = true.
Proof. destruct s; reflexivity. Qed.

Lemma filter_ext_id {A} (f : A -> bool) (l : list A) :
  (forall x, In x l -> f x = true) -> List.filter f l = l.
Proof.
  induction l as [|a l IH]; intros H; simpl.
  - reflexivity.
  - rewrite (H a (or_introl eq_refl)). f_equal.
    apply IH. intros x Hx. apply H. now right.
Qed.

Lemma filter_Subseq {A} (f : A -> bool) (l : list A) :
  Subseq (List.filter f l) l.
Proof.
  induction l as [|a l IH]; simpl.
  - constructor.
  - destruct (f a); now constructor.
Qed.

Lemma truthy_Some (c : string) : c <> "" -> truthy (Some c) = true.
Proof.
  intros H. unfold truthy.
  destruct (String.eqb_spec c ""); [contradiction | reflexivity].
Qed.

Lemma Filter_not_women (f : Filter) : f <> women -> Filter_eqb f women = false.
Proof. destruct f; [reflexivity | congruence]. Qed.

(** ** View filter *)

Section ViewFilterFacts.

Variable toLowerCase : string -> string.

(** The four rules, one equation each. *)

Lemma keep_rule1 st c p :
  c <> "" ->
  keep toLowerCase st women true (Some c) p = (college p =? c) && isWomenLed p.
Proof. intros H. unfold keep. now rewrite (truthy_Some H). Qed.

Lemma keep_rule2 st f c p :
  c <> "" -> f <> women ->
  keep toLowerCase st f true (Some c) p = (college p =? c).
Proof.
  intros H Hf. unfold keep.
  now rewrite (truthy_Some H), (Filter_not_women Hf).
Qed.

Lemma keep_rule3 st b uc p :
  b && truthy uc = false ->
  keep toLowerCase st women b uc p = isWomenLed p.
Proof. intros H. unfold keep. now rewrite H. Qed.

Lemma keep_rule4 st b uc p :
  b && truthy uc = false ->
  keep toLowerCase st all b uc p = matchesSearch toLowerCase st p.
Proof. intros H. unfold keep. now rewrite H. Qed.

(** C1. With the my-college toggle on, a resolved college [c] (a value the
    source's test [showMyCollege && userCollege] accepts) and a filter
    selection other than women-led, [visible] is exactly the projects whose
    college is [c], whatever the search term and the selection; a project
    of that college which the search term does not match is still there. *)
Theorem visible_my_college ps st f c :
  c <> "" -> f <> women ->
  visible toLowerCase ps st f true (Some c) = List.filter (fun p => college p =? c) ps
  /\ (forall p, In p ps -> college p = c ->
                matchesSearch toLowerCase st p = false ->
                In p (visible toLowerCase ps st f true (Some c))).
Proof.
  intros Hc Hf.
  assert (E : visible toLowerCase ps st f true (Some c)
              = List.filter (fun p => college p =? c) ps).
  { unfold visible. apply filter_ext.
    intros p. now apply keep_rule2. }
  split; [exact E|].
  intros p Hin Hcol _. rewrite E. apply filter_In. split; [exact Hin|].
  subst c. apply String.eqb_refl.
Qed.

(** C4. With the toggle on, a resolved college [c] and the women-led
    selection, [visible] is exactly the projects of college [c] that are
    women-led. *)
Theorem visible_my_college_women ps st c :
  c <> "" ->
  visible toLowerCase ps st women true (Some c)
  = List.filter (fun p => (college p =? c) && isWomenLed p) ps.
Proof.
  intros Hc. unfold visible. apply filter_ext.
  intros p. now apply keep_rule1.
Qed.

(** C5. With the women-led selection and the toggle off (or no resolved
    college), [visible] is the women-led projects of [P], in the order of
    [P], for every search term. *)
Theorem visible_women_led ps st b uc :
  b = false \/ uc = None ->
  visible toLowerCase ps st women b uc = List.filter isWomenLed ps
  /\ Subseq (visible toLowerCase ps st women b uc) ps
  /\ (forall p, In p (visible toLowerCase ps st women b uc)
                <-> In p ps /\ isWomenLed p = true).
Proof.
  intros H.
  assert (Hoff : b && truthy uc = false).
  { destruct H as [-> | ->]; [reflexivity | apply andb_false_r]. }
  assert (E : visible toLowerCase ps st women b uc = List.filter isWomenLed ps).
  { unfold visible. apply filter_ext.
    intros p. now apply keep_rule3. }
  rewrite E. split; [reflexivity | split].
  - apply filter_Subseq.
  - intros p. apply filter_In.
Qed.

(** C7. With the toggle on but no resolved college, [visible] is what it is
    with the toggle off, for every list, search term and selection: rule 3
    under the women-led selection, rule 4 otherwise. *)
Theorem visible_toggle_without_college ps st f :
  visible toLowerCase ps st f true None = visible toLowerCase ps st f false None
  /\ visible toLowerCase ps st f true None
     = List.filter (match f with
                    | women => isWomenLed
                    | all => matchesSearch toLowerCase st
                    end) ps.
Proof.
  split; [reflexivity|].
  unfold visible. apply filter_ext. intros p.
  destruct f; [apply keep_rule4 | apply keep_rule3]; reflexivity.
Qed.

Hypothesis toLowerCase_empty : toLowerCase "" = "".

Lemma matchesSearch_empty p : matchesSearch toLowerCase "" p = true.
Proof.
  unfold matchesSearch. rewrite toLowerCase_empty.
  now rewrite includes_empty.
Qed.

(** C6. With an empty search term, the selection [all] and the toggle off,
    [visible] returns the whole list, for every resolved college. *)
Theorem visible_show_all ps c :
  visible toLowerCase ps "" all false c = ps.
Proof.
  unfold visible. apply filter_ext_id.
  intros p _. rewrite keep_rule4 by reflexivity.
  apply matchesSearch_empty.
Qed.

End ViewFilterFacts.

(** The three scenarios of the feed, run with [ascii_toLowerCase]. *)

Example scenario_A :
  map id (visible JsString.ascii_toLowerCase Sample.feed "" all true (Some "X")) = ["1"].
Proof. reflexivity. Qed.

Example scenario_B :
  map id (visible JsString.ascii_toLowerCase Sample.feed "" women false (Some "X")) = ["2"].
Proof. reflexivity. Qed.

Example scenario_C :
  map id (visible JsString.ascii_toLowerCase Sample.feed "bot" all false None) = ["2"].
Proof. reflexivity. Qed.

Lemma visible_my_college_witness :
  visible JsString.ascii_toLowerCase Sample.feed "bot" all true (Some "X")
  = [Sample.project1].
Proof.
  refine (eq_trans
            (proj1 (@visible_my_college JsString.ascii_toLowerCase
                      Sample.feed "bot" all "X" _ _)) _).
  - discriminate.
  - discriminate.
  - reflexivity.
Defined.

Lemma visible_my_college_women_witness :
  visible JsString.ascii_toLowerCase Sample.feed "" women true (Some "Y")
  = [Sample.project2].
Proof.
  refine (eq_trans
            (@visible_my_college_women JsString.ascii_toLowerCase
               Sample.feed "" "Y" _) _).
  - discriminate.
  - reflexivity.
Defined.

Lemma visible_women_led_witness :
  visible JsString.ascii_toLowerCase Sample.feed "app" women false (Some "X")
  = [Sample.project2].
Proof.
  refine (eq_trans
            (proj1 (@visible_women_led JsString.ascii_toLowerCase
                      Sample.feed "app" false (Some "X") _)) _).
  - left. reflexivity.
  - reflexivity.
Defined.

Lemma visible_show_all_witness :
  visible JsString.ascii_toLowerCase Sample.feed "" all false (Some "X")
  = Sample.feed.
Proof.
  apply (@visible_show_all JsString.ascii_toLowerCase).
  reflexivity.
Defined.

(** ** Project loader *)

Lemma buildQuery_all :
  buildQuery all = query (collection "projects") [].
Proof. reflexivity. Qed.

Lemma buildQuery_women :
  buildQuery women
  = query (collection "projects") [where_ "isWomenLed" "==" (VBool true)].
Proof. reflexivity. Qed.

(** One call of [fetchProjects], by how the read settles. *)
Lemma fetchProjects_run env s :
  fetchProjects env s =
  match getDocs env (buildQuery (filter s)) with
  | Fulfilled querySnapshot =>
      (Normal tt,
       mkState (map (fun doc => withId (doc_id doc) (doc_data doc)) (docs querySnapshot))
               false (searchTerm s) (filter s) (userCollege s) (showMyCollege s),
       [CallGetDocs (buildQuery (filter s))])
  | Rejected error =>
      (Normal tt,
       mkState (projects s) false (searchTerm s) (filter s) (userCollege s) (showMyCollege s),
       [CallGetDocs (buildQuery (filter s));
        ConsoleError "Error fetching projects:" error;
        AddToast "Failed to load projects" "error"])
  end.
Proof.
  unfold fetchProjects, bind, read, try_catch_finally, await_getDocs, await,
    setLoading, setProjects, emit; simpl.
  destruct (getDocs env (buildQuery (filter s))); reflexivity.
Qed.

Lemma fetchProjects_keeps_cells env s :
  let s' := state_after fetchProjects env s in
  searchTerm s' = searchTerm s /\ filter s' = filter s
  /\ userCollege s' = userCollege s /\ showMyCollege s' = showMyCollege s.
Proof.
  unfold state_after. rewrite fetchProjects_run.
  destruct (getDocs env (buildQuery (filter s))); simpl; auto.
Qed.

Lemma withId_fields doc_id data :
  let p := withId doc_id data in
  title p = d_title data /\ description p = d_description data
  /\ skills p = d_skills data /\ teamSize p = d_teamSize data
  /\ duration p = d_duration data /\ isWomenLed p = d_isWomenLed data
  /\ creatorName p = d_creatorName data /\ creatorId p = d_creatorId data
  /\ college p = d_college data /\ createdAt p = d_createdAt data
  /\ applicants p = d_applicants data.
Proof. simpl. repeat split. Qed.

Lemma withId_id doc_id data :
  d_id data = None -> id (withId doc_id data) = doc_id.
Proof. intros H. simpl. now rewrite H. Qed.

(** C3. When the read of the project collection rejects, the project list is
    the one before the call, the only toast is "Failed to load projects" of
    type "error", and [loading] is false; the call itself completes normally.
    [loading] is false after every call, the successful ones too. *)
Theorem fetchProjects_failure env s :
  loading (state_after fetchProjects env s) = false
  /\ (forall error,
        getDocs env (buildQuery (filter s)) = Rejected error ->
        projects (state_after fetchProjects env s) = projects s
        /\ toasts (effects_of fetchProjects env s)
           = [("Failed to load projects", "error")]
        /\ completion_of fetchProjects env s = Normal tt).
Proof.
  unfold state_after, effects_of, completion_of.
  rewrite fetchProjects_run. split.
  - destruct (getDocs env (buildQuery (filter s))); reflexivity.
  - intros error ->. simpl. auto.
Qed.

Lemma fetchProjects_failure_witness :
  projects (state_after fetchProjects Sample.offline Sample.resolved) = Sample.feed
  /\ toasts (effects_of fetchProjects Sample.offline Sample.resolved)
     = [("Failed to load projects", "error")]
  /\ completion_of fetchProjects Sample.offline Sample.resolved = Normal tt.
Proof.
  apply (proj2 (fetchProjects_failure Sample.offline Sample.resolved) "unavailable").
  reflexivity.
Defined.





(** C9. The search action is [fetchProjects]: same completion, same state,
    same effects; and the request it sends does not depend on the search
    term. *)
Theorem handleSearch_is_reload env s :
  handleSearch env s = fetchProjects env s
  /\ (forall term,
        requests (effects_of handleSearch env
                    (state_after (setSearchTerm term) env s))
        = requests (effects_of fetchProjects env s)).
Proof.
  split; [reflexivity|]. intros term.
  unfold handleSearch, effects_of, state_after.
  rewrite !fetchProjects_run. simpl.
  destruct (getDocs env (buildQuery (filter s))); reflexivity.
Qed.

(** ** Identity resolver *)

(** One run of the effect on [currentUser], by the user and by how the read
    of the profile settles. *)
Lemma onCurrentUser_run env currentUser s :
  onCurrentUser currentUser env s =
  match currentUser with
  | None =>
      (Normal tt,
       mkState (projects s) (loading s) (searchTerm s) (filter s) None (showMyCollege s),
       [])
  | Some u =>
      let profileRef := doc "profiles" (uid u) in
      match getDoc env profileRef with
      | Fulfilled (Some data) =>
          (Normal tt,
           mkState (projects s) (loading s) (searchTerm s) (filter s)
                   (js_or (p_college data) None) (showMyCollege s),
           [CallGetDoc profileRef])
      | Fulfilled None => (Normal tt, s, [CallGetDoc profileRef])
      | Rejected e => (Normal tt, s, [CallGetDoc profileRef; UnhandledRejection e])
      end
  end.
Proof.
  destruct currentUser as [u|]; [|reflexivity].
  unfold onCurrentUser, detach, fetchCollege, bind, await_getDoc, await; simpl.
  destruct (getDoc env (doc "profiles" (uid u))) as [[data|]|e]; reflexivity.
Qed.

(** Signed out: the college is reset, and the store is not read. *)
Lemma onCurrentUser_signed_out env s :
  userCollege (state_after (onCurrentUser None) env s) = None
  /\ effects_of (onCurrentUser None) env s = [].
Proof. split; reflexivity. Qed.

(** Signed in, no profile record: no cell is written. *)
Lemma onCurrentUser_no_profile env u s :
  getDoc env (doc "profiles" (uid u)) = Fulfilled None ->
  state_after (onCurrentUser (Some u)) env s = s.
Proof.
  intros H. unfold state_after. rewrite onCurrentUser_run. simpl.
  now rewrite H.
Qed.

Lemma js_or_null_not_empty (a : option string) : js_or a None <> Some "".
Proof.
  unfold js_or. destruct a as [c|]; simpl; [|discriminate].
  destruct (String.eqb_spec c ""); simpl; [discriminate|congruence].
Qed.

(** C2, on the code.  User [u1], whose profile has college "X", was
    resolved; the identity then changes to [u3], who has no profile record.
    The fetch completes, and the resolved college is still "X", the college
    of the previous user. *)
Theorem onCurrentUser_stale_college :
  getDoc Sample.online (doc "profiles" "u3") = Fulfilled None
  /\ userCollege
       (state_after (onCurrentUser (Some (mkUser "u1"))) Sample.online initialState)
     = Some "X"
  /\ userCollege
       (state_after (onCurrentUser (Some (mkUser "u3"))) Sample.online
          (state_after (onCurrentUser (Some (mkUser "u1"))) Sample.online initialState))
     = Some "X".
Proof. repeat split. Qed.

(** C10. When the profile record exists, the resolved college becomes the
    record's college if that is truthy and [null] otherwise; a record whose
    college is the empty string leaves the page in the state a record
    without the field leaves it in. *)
Theorem fetchCollege_falsy_college env u s r :
  getDoc env (doc "profiles" (uid u)) = Fulfilled (Some r) ->
  userCollege (state_after (onCurrentUser (Some u)) env s)
  = (if truthy (p_college r) then p_college r else None)
  /\ (p_college r = Some "" ->
      state_after (onCurrentUser (Some u)) env s
      = state_after (setUserCollege None) env s).
Proof.
  intros H. unfold state_after. rewrite onCurrentUser_run. simpl.
  rewrite H. simpl. split; [reflexivity|].
  intros ->. reflexivity.
Qed.

Lemma fetchCollege_falsy_college_witness :
  userCollege
    (state_after (onCurrentUser (Some (mkUser "u2"))) Sample.online Sample.resolved)
  = None.
Proof.
  apply (proj1 (@fetchCollege_falsy_college Sample.online (mkUser "u2")
                  Sample.resolved (mkProfile (Some "")) eq_refl)).
Defined.

(** ** The page as a whole *)

(** No run stores the empty string as the resolved college: on a state of
    the page, [userCollege] is [null] or passes the test of the view
    filter. *)
Lemma userCollege_never_empty s :
  reachable s -> userCollege s <> Some "".
Proof.
  induction 1 as [|env u s _ IH|env f s _ IH|env s _ IH|env v s _ IH|env b s _ IH].
  - discriminate.
  - unfold state_after. rewrite onCurrentUser_run.
    destruct u as [u|]; simpl; [|discriminate].
    destruct (getDoc env (doc "profiles" (uid u))) as [[data|]|e]; simpl; auto.
    apply js_or_null_not_empty.
  - unfold state_after, bind, setFilter, detach. rewrite fetchProjects_run. simpl.
    destruct (getDocs env (buildQuery f)); exact IH.
  - unfold state_after, handleSearch. rewrite fetchProjects_run.
    destruct (getDocs env (buildQuery (filter s))); exact IH.
  - exact IH.
  - exact IH.
Qed.

(** The state in which the stale college is observed is one the page
    reaches. *)
Lemma stale_state_reachable :
  reachable
    (state_after (onCurrentUser (Some (mkUser "u3"))) Sample.online
       (state_after (onCurrentUser (Some (mkUser "u1"))) Sample.online initialState)).
Proof. do 2 apply reach_user. apply reach_init. Qed.

(** Rule 2 on the states of the page: there, a resolved college that is not
    [null] is enough. *)
Lemma filteredProjects_my_college toLowerCase s c :
  reachable s ->
  showMyCollege s = true -> userCollege s = Some c -> filter s <> women ->
  filteredProjects toLowerCase s
  = List.filter (fun p => college p =? c) (projects s).
Proof.
  intros Hr Ht Hc Hf. unfold filteredProjects, visible.
  rewrite Ht, Hc. apply filter_ext. intros p.
  apply keep_rule2; [|exact Hf].
  intros ->. apply (userCollege_never_empty Hr). exact Hc.
Qed.

(* ================================================================== *)
(** * Further properties of the page *)

(** ** Substrings *)

Lemma append_empty_r (s : string) : (s ++ "")%string = s.
Proof. induction s as [|c s IH]; simpl; [reflexivity | now rewrite IH]. Qed.

Lemma append_assoc_string (a b c : string) : ((a ++ b) ++ c = a ++ b ++ c)%string.
Proof. induction a as [|x a IH]; simpl; [reflexivity | now rewrite IH]. Qed.

Lemma includes_unfold (s t : string) :
  JsString.includes s t
  = String.prefix t s
    || match s with
       | EmptyString => false
       | String _ s' => JsString.includes s' t
       end.
Proof. destruct s; reflexivity. Qed.

Lemma prefix_append (t b : string) : String.prefix t (t ++ b)%string = true.
Proof.
  induction t as [|c t IH]; simpl.
  - destruct b; reflexivity.
  - destruct (ascii_dec c c); [exact IH | congruence].
Qed.

Lemma prefix_split (t s : string) :
  String.prefix t s = true -> exists b, s = (t ++ b)%string.
Proof.
  revert t. induction s as [|c s IH]; intros [|d t] H; simpl in H.
  - now exists "".
  - discriminate.
  - now exists (String c s).
  - destruct (ascii_dec d c) as [->|]; [|discriminate].
    destruct (IH t H) as [b ->]. now exists b.
Qed.

(** [includes] is the substring test: [t] occurs in [s] exactly when [s] is
    [a ++ t ++ b] for some [a] and [b]. *)
Lemma includes_intro (a t b : string) :
  JsString.includes (a ++ t ++ b)%string t = true.
Proof.
  induction a as [|c a IH].
  - simpl. rewrite includes_unfold, prefix_append. reflexivity.
  - change (String c a ++ t ++ b)%string with (String c (a ++ t ++ b)%string).
    rewrite includes_unfold, IH. apply orb_true_r.
Qed.

Lemma includes_split (s t : string) :
  JsString.includes s t = true -> exists a b, s = (a ++ t ++ b)%string.
Proof.
  induction s as [|c s IH]; rewrite includes_unfold; intros H;
    apply orb_true_iff in H; destruct H as [H|H].
  - destruct (prefix_split _ _ H) as [b ->]. now exists "", b.
  - discriminate.
  - destruct (prefix_split _ _ H) as [b Hb]. exists "", b. exact Hb.
  - destruct (IH H) as (a & b & ->). now exists (String c a), b.
Qed.

Lemma includes_refl (s : string) : JsString.includes s s = true.
Proof.
  rewrite <- (append_empty_r s) at 1.
  apply (includes_intro "" s "").
Qed.

Lemma includes_trans (s t u : string) :
  JsString.includes s t = true -> JsString.includes t u = true ->
  JsString.includes s u = true.
Proof.
  intros Hst Htu.
  destruct (includes_split _ _ Hst) as (a & b & ->).
  destruct (includes_split _ _ Htu) as (a' & b' & ->).
  replace (a ++ (a' ++ u ++ b') ++ b)%string
    with ((a ++ a') ++ u ++ (b' ++ b))%string.
  - apply includes_intro.
  - now rewrite !append_assoc_string.
Qed.

(** ** Lists *)

Lemma filter_andb {A} (f g : A -> bool) (l : list A) :
  List.filter f (List.filter g l) = List.filter (fun x => g x && f x) l.
Proof.
  induction l as [|a l IH]; simpl; [reflexivity|].
  destruct (g a); simpl; [destruct (f a)|]; now rewrite IH.
Qed.

Lemma filter_Subseq_mono {A} (f g : A -> bool) (l : list A) :
  (forall x, f x = true -> g x = true) ->
  Subseq (List.filter f l) (List.filter g l).
Proof.
  intros H. induction l as [|a l IH]; simpl; [constructor|].
  destruct (f a) eqn:Ef.
  - rewrite (H a Ef). now constructor.
  - destruct (g a); [now constructor | exact IH].
Qed.

Lemma Subseq_length {A} (l1 l2 : list A) :
  Subseq l1 l2 -> (List.length l1 <= List.length l2)%nat.
Proof.
  induction 1; simpl; auto using le_n_S, le_S.
Qed.

Lemma Subseq_In {A} (l1 l2 : list A) (x : A) :
  Subseq l1 l2 -> In x l1 -> In x l2.
Proof.
  induction 1; simpl; intuition.
Qed.

(** ** View filter, continued *)

Section ViewFilterMore.

Variable toLowerCase : string -> string.

(** X1. Whatever the search term, the selection, the toggle and the resolved
    college, the displayed projects are a subsequence of the loaded ones:
    nothing is added, repeated or reordered, and the count never grows. *)
Theorem visible_is_subsequence ps st f b uc :
  Subseq (visible toLowerCase ps st f b uc) ps
  /\ (List.length (visible toLowerCase ps st f b uc) <= List.length ps)%nat
  /\ (forall p, In p (visible toLowerCase ps st f b uc) -> In p ps).
Proof.
  assert (H : Subseq (visible toLowerCase ps st f b uc) ps)
    by apply filter_Subseq.
  split; [exact H | split].
  - now apply Subseq_length.
  - intros p. now apply Subseq_In.
Qed.

(** X2. Under the women-led selection no project that is not women-led is
    displayed, whether rule 1 or rule 3 applies. *)
Theorem visible_women_only ps st b uc p :
  In p (visible toLowerCase ps st women b uc) -> isWomenLed p = true.
Proof.
  unfold visible. intros H. apply filter_In in H. destruct H as [_ H].
  unfold keep in H. simpl in H.
  destruct (b && truthy uc); simpl in H.
  - now apply andb_true_iff in H.
  - exact H.
Qed.

(** X3. With the toggle on and a resolved college, every displayed project
    is of that college, under either selection and any search term. *)
Theorem visible_college_only ps st f c p :
  c <> "" ->
  In p (visible toLowerCase ps st f true (Some c)) -> college p = c.
Proof.
  intros Hc H. unfold visible in H. apply filter_In in H. destruct H as [_ H].
  destruct f.
  - rewrite keep_rule2 in H by (auto; discriminate).
    now apply String.eqb_eq.
  - rewrite keep_rule1 in H by auto.
    apply andb_true_iff in H. now apply String.eqb_eq.
Qed.

(** X4. Rule 1 is rule 2 and rule 3 together, in either order: the
    women-led projects of the college view, and the college's projects of
    the women-led view. *)
Theorem visible_rule1_composes ps st st' c uc :
  c <> "" ->
  visible toLowerCase ps st women true (Some c)
  = List.filter isWomenLed (visible toLowerCase ps st' all true (Some c))
  /\ visible toLowerCase ps st women true (Some c)
     = List.filter (fun p => college p =? c)
         (visible toLowerCase ps st' women false uc).
Proof.
  intros Hc. unfold visible. rewrite !filter_andb. split.
  - apply filter_ext. intros p.
    rewrite keep_rule1, keep_rule2 by (auto; discriminate). reflexivity.
  - apply filter_ext. intros p.
    rewrite keep_rule1, keep_rule3 by auto. apply andb_comm.
Qed.

(** X5. Filtering what is displayed once more, with the same controls,
    changes nothing. *)
Theorem visible_idempotent ps st f b uc :
  visible toLowerCase (visible toLowerCase ps st f b uc) st f b uc
  = visible toLowerCase ps st f b uc.
Proof.
  unfold visible. rewrite filter_andb. apply filter_ext.
  intros p. apply andb_diag.
Qed.

(** X6. The search term counts only through its lower-casing: two terms
    with the same lower-casing display the same projects. *)
Theorem visible_search_case ps st st' f b uc :
  toLowerCase st = toLowerCase st' ->
  visible toLowerCase ps st f b uc = visible toLowerCase ps st' f b uc.
Proof.
  intros H. unfold visible. apply filter_ext. intros p.
  unfold keep, matchesSearch. now rewrite H.
Qed.

(** X7. When rule 4 applies, a project is found by its title, by its
    description and by each of its skills, typed in full. *)
Theorem visible_finds_own_text ps b uc p t :
  b && truthy uc = false ->
  In p ps ->
  t = title p \/ t = description p \/ In t (skills p) ->
  In p (visible toLowerCase ps t all b uc).
Proof.
  intros Hoff Hin Ht. unfold visible. apply filter_In. split; [exact Hin|].
  rewrite keep_rule4 by exact Hoff. unfold matchesSearch.
  destruct Ht as [-> | [-> | Hs]].
  - now rewrite includes_refl.
  - rewrite includes_refl. now rewrite orb_true_r.
  - rewrite !orb_true_iff. right. apply existsb_exists.
    exists t. split; [exact Hs | apply includes_refl].
Qed.

(** X8. A search term whose lower-casing contains the lower-casing of
    another displays no project the other does not display: a longer term
    narrows the result. *)
Theorem visible_search_narrows ps st st' f b uc :
  JsString.includes (toLowerCase st) (toLowerCase st') = true ->
  Subseq (visible toLowerCase ps st f b uc) (visible toLowerCase ps st' f b uc).
Proof.
  intros H. unfold visible. apply filter_Subseq_mono. intros p.
  unfold keep.
  destruct (b && truthy uc && Filter_eqb f women); [trivial|].
  destruct (b && truthy uc); [trivial|].
  destruct (Filter_eqb f women); [trivial|].
  unfold matchesSearch. rewrite !orb_true_iff, !existsb_exists.
  intros [[Ht | Hd] | (sk & Hsk & Hi)].
  - left; left. now apply includes_trans with (toLowerCase st).
  - left; right. now apply includes_trans with (toLowerCase st).
  - right. exists sk. split; [exact Hsk|].
    now apply includes_trans with (toLowerCase st).
Qed.

End ViewFilterMore.

Lemma visible_college_only_witness :
  college Sample.project1 = "X".
Proof.
  apply (@visible_college_only JsString.ascii_toLowerCase
           Sample.feed "bot" all "X" Sample.project1).
  - discriminate.
  - vm_compute. left. reflexivity.
Defined.

Lemma visible_rule1_composes_witness :
  visible JsString.ascii_toLowerCase Sample.feed "" women true (Some "Y")
  = List.filter isWomenLed
      (visible JsString.ascii_toLowerCase Sample.feed "app" all true (Some "Y")).
Proof.
  apply (proj1 (@visible_rule1_composes JsString.ascii_toLowerCase
                  Sample.feed "" "app" "Y" None ltac:(discriminate))).
Defined.

Lemma visible_search_case_witness :
  visible JsString.ascii_toLowerCase Sample.feed "BOT" all false None
  = visible JsString.ascii_toLowerCase Sample.feed "bot" all false None.
Proof.
  apply (@visible_search_case JsString.ascii_toLowerCase).
  reflexivity.
Defined.

Lemma visible_finds_own_text_witness :
  In Sample.project2
     (visible JsString.ascii_toLowerCase Sample.feed "Bot" all true None).
Proof.
  apply (@visible_finds_own_text JsString.ascii_toLowerCase).
  - reflexivity.
  - right. left. reflexivity.
  - left. reflexivity.
Defined.

Lemma visible_search_narrows_witness :
  Subseq (visible JsString.ascii_toLowerCase Sample.feed "Bot" all false None)
         (visible JsString.ascii_toLowerCase Sample.feed "o" all false None).
Proof.
  apply (@visible_search_narrows JsString.ascii_toLowerCase).
  reflexivity.
Defined.

Lemma visible_women_only_witness :
  isWomenLed Sample.project2 = true.
Proof.
  apply (@visible_women_only JsString.ascii_toLowerCase
           Sample.feed "" true (Some "Y") Sample.project2).
  vm_compute. left. reflexivity.
Defined.

(** ** Project loader, continued *)

Lemma detach_fetchProjects env s :
  detach fetchProjects env s = fetchProjects env s.
Proof.
  unfold detach. rewrite fetchProjects_run.
  destruct (getDocs env (buildQuery (filter s))); reflexivity.
Qed.

(** X9. [fetchProjects] never throws: for every store and state the call
    completes normally, so calling it without awaiting it, as the effect and
    the search button do, leaves no unhandled rejection. *)
Theorem fetchProjects_never_throws env s :
  completion_of fetchProjects env s = Normal tt
  /\ unhandled (effects_of (detach fetchProjects) env s) = []
  /\ state_after (detach fetchProjects) env s = state_after fetchProjects env s.
Proof.
  unfold completion_of, effects_of, state_after.
  rewrite detach_fetchProjects, fetchProjects_run.
  destruct (getDocs env (buildQuery (filter s))); auto.
Qed.

(** X10. When the read rejects, what is displayed from the list is what was
    displayed before: the stale projects stay, under the same controls. *)
Theorem fetchProjects_failure_keeps_view toLowerCase env s error :
  getDocs env (buildQuery (filter s)) = Rejected error ->
  filteredProjects toLowerCase (state_after fetchProjects env s)
  = filteredProjects toLowerCase s.
Proof.
  intros H. unfold state_after. rewrite fetchProjects_run, H. reflexivity.
Qed.

Lemma fetchProjects_failure_keeps_view_witness :
  filteredProjects JsString.ascii_toLowerCase
    (state_after fetchProjects Sample.offline Sample.resolved)
  = Sample.feed.
Proof.
  refine (eq_trans
            (@fetchProjects_failure_keeps_view JsString.ascii_toLowerCase
               Sample.offline Sample.resolved "unavailable" eq_refl) _).
  reflexivity.
Defined.

(** X11. Reloading twice against the same store leaves the state one reload
    leaves. *)
Theorem fetchProjects_twice env s :
  state_after fetchProjects env (state_after fetchProjects env s)
  = state_after fetchProjects env s.
Proof.
  unfold state_after. rewrite (fetchProjects_run env s).
  destruct (getDocs env (buildQuery (filter s))) eqn:E; simpl;
    rewrite fetchProjects_run; simpl; rewrite E; reflexivity.
Qed.

(** X12. A successful load is silent: its only effect is the one read; no
    toast, no console message.  The list has one project per fetched
    document. *)
Theorem fetchProjects_success_quiet env s querySnapshot :
  getDocs env (buildQuery (filter s)) = Fulfilled querySnapshot ->
  effects_of fetchProjects env s = [CallGetDocs (buildQuery (filter s))]
  /\ toasts (effects_of fetchProjects env s) = []
  /\ List.length (projects (state_after fetchProjects env s))
     = List.length (docs querySnapshot).
Proof.
  intros H. unfold effects_of, state_after.
  rewrite fetchProjects_run, H. simpl.
  repeat split. apply length_map.
Qed.

Lemma fetchProjects_success_quiet_witness :
  effects_of fetchProjects Sample.online initialState
  = [CallGetDocs (buildQuery all)].
Proof.
  apply (proj1 (@fetchProjects_success_quiet Sample.online initialState
                  (mkSnapshot [mkDoc "1" Sample.data1; mkDoc "2" Sample.data2])
                  eq_refl)).
Defined.

(** X13. When no fetched document has a field [id] in its data, the loaded
    projects carry the document ids, in the order of the snapshot. *)
Theorem fetchProjects_ids env s querySnapshot :
  getDocs env (buildQuery (filter s)) = Fulfilled querySnapshot ->
  (forall d, In d (docs querySnapshot) -> d_id (doc_data d) = None) ->
  map id (projects (state_after fetchProjects env s))
  = map doc_id (docs querySnapshot).
Proof.
  intros H Hid. unfold state_after. rewrite fetchProjects_run, H. simpl.
  rewrite map_map. apply map_ext_in. intros d Hd.
  apply withId_id. now apply Hid.
Qed.

Lemma fetchProjects_ids_witness :
  map id (projects (state_after fetchProjects Sample.online initialState))
  = ["1"; "2"].
Proof.
  apply (@fetchProjects_ids Sample.online initialState
           (mkSnapshot [mkDoc "1" Sample.data1; mkDoc "2" Sample.data2]) eq_refl).
  intros d [<- | [<- | []]]; reflexivity.
Defined.

(** X14. Under the women-led selection with the toggle off, when every
    fetched document is women-led (the store applied the constraint), the
    page displays the whole fetched list. *)
Theorem fetchProjects_women_view_complete toLowerCase env s querySnapshot :
  filter s = women -> showMyCollege s = false ->
  getDocs env (buildQuery women) = Fulfilled querySnapshot ->
  (forall d, In d (docs querySnapshot) -> d_isWomenLed (doc_data d) = true) ->
  filteredProjects toLowerCase (state_after fetchProjects env s)
  = projects (state_after fetchProjects env s).
Proof.
  intros Hf Ht H Hw. unfold state_after, filteredProjects.
  rewrite fetchProjects_run, Hf, H. simpl. rewrite Ht.
  unfold visible. apply filter_ext_id. intros p Hp.
  apply in_map_iff in Hp. destruct Hp as (d & <- & Hd).
  unfold keep. simpl. now apply Hw.
Qed.

Lemma fetchProjects_women_view_complete_witness :
  filteredProjects JsString.ascii_toLowerCase
    (state_after fetchProjects Sample.online (mkState [] true "app" women None false))
  = [Sample.project2].
Proof.
  refine (eq_trans
            (@fetchProjects_women_view_complete JsString.ascii_toLowerCase
               Sample.online (mkState [] true "app" women None false)
               (mkSnapshot [mkDoc "2" Sample.data2]) eq_refl eq_refl eq_refl _) _).
  - intros d [<- | []]. reflexivity.
  - reflexivity.
Defined.

(** X15. A click on the filter button that is not the active one stores the
    new selection and sends exactly one request, built from the new
    selection; a click on the active one changes nothing and sends
    nothing. *)
Theorem clickFilter_request env s f :
  (f <> filter s ->
   requests (effects_of (clickFilter f) env s) = [buildQuery f]
   /\ filter (state_after (clickFilter f) env s) = f
   /\ loading (state_after (clickFilter f) env s) = false)
  /\ (f = filter s ->
      state_after (clickFilter f) env s = s
      /\ effects_of (clickFilter f) env s = []).
Proof.
  unfold effects_of, state_after, clickFilter, bind, read, setFilter.
  split.
  - intros Hne.
    assert (E : Filter_eqb (filter s) f = false)
      by (destruct (filter s), f; try reflexivity; congruence).
    rewrite E. rewrite detach_fetchProjects, fetchProjects_run. simpl.
    destruct (getDocs env (buildQuery f)); simpl; auto.
  - intros ->.
    assert (E : Filter_eqb (filter s) (filter s) = true)
      by (destruct (filter s); reflexivity).
    rewrite E. simpl. destruct s; auto.
Qed.

Lemma clickFilter_request_witness :
  requests (effects_of (clickFilter women) Sample.offline Sample.resolved)
  = [buildQuery women].
Proof.
  apply (proj1 (@clickFilter_request Sample.offline Sample.resolved women)).
  discriminate.
Defined.

(** ** Identity resolver, continued *)

(** X16. When the read of the profile rejects, nothing catches it: no cell
    changes, no toast is shown, and the rejection stays unhandled. *)
Theorem onCurrentUser_rejected env u s e :
  getDoc env (doc "profiles" (uid u)) = Rejected e ->
  state_after (onCurrentUser (Some u)) env s = s
  /\ toasts (effects_of (onCurrentUser (Some u)) env s) = []
  /\ unhandled (effects_of (onCurrentUser (Some u)) env s) = [e].
Proof.
  intros H. unfold state_after, effects_of.
  rewrite onCurrentUser_run. simpl. rewrite H. auto.
Qed.

Lemma onCurrentUser_rejected_witness :
  state_after (onCurrentUser (Some (mkUser "u1"))) Sample.offline Sample.resolved
  = Sample.resolved.
Proof.
  apply (proj1 (@onCurrentUser_rejected Sample.offline (mkUser "u1")
                  Sample.resolved "unavailable" eq_refl)).
Defined.

(** X17. The effect on [currentUser] writes no cell but [userCollege], never
    reads the project collection, and completes normally for every store. *)
Theorem onCurrentUser_frame env currentUser s :
  let s' := state_after (onCurrentUser currentUser) env s in
  projects s' = projects s /\ loading s' = loading s
  /\ searchTerm s' = searchTerm s /\ filter s' = filter s
  /\ showMyCollege s' = showMyCollege s
  /\ requests (effects_of (onCurrentUser currentUser) env s) = []
  /\ completion_of (onCurrentUser currentUser) env s = Normal tt.
Proof.
  unfold state_after, effects_of, completion_of. rewrite onCurrentUser_run.
  destruct currentUser as [u|]; simpl; [|repeat split].
  destruct (getDoc env (doc "profiles" (uid u))) as [[data|]|e];
    simpl; repeat split.
Qed.

(** X18. One run of the effect reads the store once when a user is signed
    in, the document of collection "profiles" keyed by the user's uid, and
    not at all when nobody is signed in. *)
Theorem onCurrentUser_reads env currentUser s :
  document_reads (effects_of (onCurrentUser currentUser) env s)
  = match currentUser with
    | Some u => [doc "profiles" (uid u)]
    | None => []
    end.
Proof.
  unfold effects_of. rewrite onCurrentUser_run.
  destruct currentUser as [u|]; simpl; [|reflexivity].
  destruct (getDoc env (doc "profiles" (uid u))) as [[data|]|e]; reflexivity.
Qed.

(** X19. Running the effect again for the same user against the same store
    changes nothing more. *)
Theorem onCurrentUser_twice env currentUser s :
  state_after (onCurrentUser currentUser) env
    (state_after (onCurrentUser currentUser) env s)
  = state_after (onCurrentUser currentUser) env s.
Proof.
  unfold state_after. rewrite !onCurrentUser_run.
  destruct currentUser as [u|]; simpl; [|reflexivity].
  destruct (getDoc env (doc "profiles" (uid u))) as [[data|]|e]; reflexivity.
Qed.

(** X20. After the effect has run for a signed-out user, the college
    restriction is off even if the toggle is still on: the page displays
    what it displays with the toggle off, and the notice is shown exactly
    when the toggle is on. *)
Theorem signed_out_view toLowerCase env s :
  let s' := state_after (onCurrentUser None) env s in
  filteredProjects toLowerCase s'
  = visible toLowerCase (projects s) (searchTerm s) (filter s) false None
  /\ warning s' = showMyCollege s.
Proof.
  simpl. split.
  - unfold filteredProjects, state_after. simpl.
    unfold visible. apply filter_ext. intros p.
    unfold keep. simpl. now rewrite andb_false_r.
  - unfold warning, state_after. simpl. apply andb_true_r.
Qed.

(** ** The page as a whole, continued *)

(** X21. The two effects run on mount write disjoint cells: run in the
    other order against the same store, they leave the same state. *)
Theorem effects_commute env currentUser s :
  state_after (mount currentUser) env s
  = state_after (detach fetchProjects ;; onCurrentUser currentUser) env s.
Proof.
  unfold state_after, mount, bind, onCurrentUser, detach, fetchCollege, fetchProjects,
    bind, read, try_catch_finally, await_getDoc, await_getDocs, await,
    setLoading, setProjects, setUserCollege, emit, ret.
  destruct currentUser as [u|]; simpl.
  - destruct (getDoc env (doc "profiles" (uid u))) as [[data|]|e]; simpl;
      destruct (getDocs env (buildQuery (filter s))); reflexivity.
  - destruct (getDocs env (buildQuery (filter s))); reflexivity.
Qed.

(** X22. On every state of the page the resolved college is [null] or a
    non-empty string, so the test [userCollege] of the view filter and of
    the My College button is the test [userCollege !== null]. *)
Theorem userCollege_null_or_truthy s :
  reachable s ->
  truthy (userCollege s) = true <-> userCollege s <> None.
Proof.
  intros Hr. pose proof (userCollege_never_empty Hr) as Hne.
  destruct (userCollege s) as [c|]; simpl.
  - split; [discriminate|]. intros _.
    destruct (String.eqb_spec c ""); [subst; congruence | reflexivity].
  - split; [discriminate | congruence].
Qed.

Lemma userCollege_null_or_truthy_witness :
  truthy (userCollege
            (state_after (onCurrentUser (Some (mkUser "u2"))) Sample.online
               initialState)) = true
  <-> userCollege
        (state_after (onCurrentUser (Some (mkUser "u2"))) Sample.online
           initialState) <> None.
Proof.
  apply (@userCollege_null_or_truthy
           (state_after (onCurrentUser (Some (mkUser "u2"))) Sample.online
              initialState)).
  apply reach_user. apply reach_init.
Defined.

(** ** What is rendered *)

Lemma keep_women toLowerCase st b uc p :
  keep toLowerCase st women b uc p = true -> isWomenLed p = true.
Proof.
  unfold keep. simpl. destruct (b && truthy uc); simpl; [|trivial].
  intros H. now apply andb_true_iff in H.
Qed.

Lemma filter_none {A} (f : A -> bool) (l : list A) :
  (forall x, In x l -> f x = false) -> List.filter f l = [].
Proof.
  induction l as [|a l IH]; intros H; simpl; [reflexivity|].
  rewrite (H a (or_introl eq_refl)). apply IH.
  intros x Hx. apply H. now right.
Qed.

(** X23. The spinner is shown exactly while [loading] is true: it is shown
    on the initial state, and after [fetchProjects] has completed it is
    not, whether the read resolved or rejected. *)
Theorem spinner_until_loaded toLowerCase env s :
  (body toLowerCase s = Spinner <-> loading s = true)
  /\ body toLowerCase initialState = Spinner
  /\ body toLowerCase (state_after fetchProjects env s) <> Spinner.
Proof.
  assert (H : forall s0, body toLowerCase s0 = Spinner <-> loading s0 = true).
  { intros s0. unfold body. destruct (loading s0).
    - split; reflexivity.
    - destruct (List.length (filteredProjects toLowerCase s0) =? 0)%nat;
        split; discriminate. }
  split; [apply H | split; [reflexivity|]].
  intros Hs. apply H in Hs.
  unfold state_after in Hs. rewrite fetchProjects_run in Hs.
  destruct (getDocs env (buildQuery (filter s))); discriminate.
Qed.

(** X24. When the first load rejects, the page shows "No projects found."
    and the error toast, whoever is signed in: a failed load looks like an
    empty result. *)
Theorem first_load_failure toLowerCase env currentUser error :
  getDocs env (buildQuery all) = Rejected error ->
  body toLowerCase (state_after (mount currentUser) env initialState)
  = Message "No projects found."
  /\ toasts (effects_of (mount currentUser) env initialState)
     = [("Failed to load projects", "error")].
Proof.
  intros H.
  unfold state_after, effects_of, mount, bind.
  rewrite onCurrentUser_run.
  destruct currentUser as [u|]; simpl.
  - destruct (getDoc env (doc "profiles" (uid u))) as [[data|]|e]; simpl;
      rewrite detach_fetchProjects, fetchProjects_run; simpl; rewrite H;
      split; reflexivity.
  - rewrite detach_fetchProjects, fetchProjects_run; simpl; rewrite H.
    split; reflexivity.
Qed.

Lemma first_load_failure_witness :
  body JsString.ascii_toLowerCase
    (state_after (mount (Some (mkUser "u1"))) Sample.offline initialState)
  = Message "No projects found.".
Proof.
  apply (proj1 (@first_load_failure JsString.ascii_toLowerCase Sample.offline
                  (Some (mkUser "u1")) "unavailable" eq_refl)).
Defined.

(** X25. With the toggle on and a resolved college, when no loaded project
    is of that college, the page says "No projects found from your
    college.", under either selection. *)
Theorem empty_college_message toLowerCase s c :
  loading s = false -> showMyCollege s = true ->
  userCollege s = Some c -> c <> "" ->
  (forall p, In p (projects s) -> college p <> c) ->
  body toLowerCase s = Message "No projects found from your college.".
Proof.
  intros Hl Ht Hc Hne Hnone. unfold body. rewrite Hl, Ht.
  assert (E : filteredProjects toLowerCase s = []).
  { unfold filteredProjects, visible. rewrite Ht, Hc.
    apply filter_none. intros p Hp.
    assert (Hp' : (college p =? c) = false)
      by (apply String.eqb_neq; now apply Hnone).
    destruct (filter s).
    - rewrite keep_rule2 by (auto; discriminate). exact Hp'.
    - rewrite keep_rule1 by auto. now rewrite Hp'. }
  now rewrite E.
Qed.

Lemma empty_college_message_witness :
  body JsString.ascii_toLowerCase
    (mkState Sample.feed false "" all (Some "Z") true)
  = Message "No projects found from your college.".
Proof.
  apply (@empty_college_message JsString.ascii_toLowerCase
           (mkState Sample.feed false "" all (Some "Z") true) "Z");
    try reflexivity; try discriminate.
  intros p [<- | [<- | []]]; discriminate.
Defined.

(** X26. The link of a card is "/projects/" followed by the card's key, the
    project id; two cards have the same link exactly when their projects
    have the same id. *)
Theorem card_links p q :
  card_link (card p) = ("/projects/" ++ card_key (card p))%string
  /\ (card_link (card p) = card_link (card q) <-> id p = id q).
Proof.
  split; [reflexivity|]. simpl. split.
  - intros H. now inversion H.
  - intros ->. reflexivity.
Qed.

(** X27. Under the women-led selection every card of the grid carries the
    "Women-led" tag and the class [female-led]. *)
Theorem women_grid_tagged toLowerCase s cards c :
  filter s = women ->
  body toLowerCase s = Grid cards ->
  In c cards ->
  card_womenLedTag c = true
  /\ card_className c
     = "card hover:shadow-glow-sm transform hover:-translate-y-1 transition-all duration-300 female-led".
Proof.
  intros Hf Hb Hc. unfold body in Hb.
  destruct (loading s); [discriminate|].
  destruct (List.length (filteredProjects toLowerCase s) =? 0)%nat; [discriminate|].
  injection Hb as <-.
  apply in_map_iff in Hc. destruct Hc as (p & <- & Hp).
  unfold filteredProjects, visible in Hp. rewrite Hf in Hp.
  apply filter_In in Hp. destruct Hp as [_ Hk].
  apply keep_women in Hk. unfold card. simpl. rewrite Hk. split; reflexivity.
Qed.

Lemma women_grid_tagged_witness :
  card_womenLedTag (card Sample.project2) = true.
Proof.
  apply (proj1 (@women_grid_tagged JsString.ascii_toLowerCase
                  (mkState Sample.feed false "" women None false)
                  [card Sample.project2] (card Sample.project2)
                  eq_refl eq_refl (or_introl eq_refl))).
Defined.

(** X28. Whenever the notice about the missing college is shown, the My
    College button is disabled, and the page displays what it displays with
    the toggle off. *)
Theorem warning_means_unrestricted toLowerCase currentUser s :
  warning s = true ->
  myCollegeDisabled currentUser s = true
  /\ filteredProjects toLowerCase s
     = visible toLowerCase (projects s) (searchTerm s) (filter s) false (userCollege s).
Proof.
  unfold warning, myCollegeDisabled. intros H.
  apply andb_true_iff in H. destruct H as [_ H].
  split; [rewrite H; apply orb_true_r|].
  apply negb_true_iff in H.
  unfold filteredProjects, visible. apply filter_ext. intros p.
  unfold keep. now rewrite H, andb_false_r.
Qed.

Lemma warning_means_unrestricted_witness :
  myCollegeDisabled (Some (mkUser "u3"))
    (mkState Sample.feed false "" all None true) = true.
Proof.
  apply (proj1 (@warning_means_unrestricted JsString.ascii_toLowerCase
                  (Some (mkUser "u3"))
                  (mkState Sample.feed false "" all None true) eq_refl)).
Defined.

(** X29. A click on My College while the button is enabled turns the toggle
    on, shows no notice, and leaves only projects of the user's college
    displayed; while the button is disabled the click does nothing. *)
Theorem clickMyCollege_effect toLowerCase env currentUser s :
  (myCollegeDisabled currentUser s = false ->
   let s' := state_after (clickMyCollege currentUser) env s in
   showMyCollege s' = true
   /\ warning s' = false
   /\ (forall p, In p (filteredProjects toLowerCase s') ->
                 Some (college p) = userCollege s))
  /\ (myCollegeDisabled currentUser s = true ->
      state_after (clickMyCollege currentUser) env s = s).
Proof.
  unfold state_after, clickMyCollege, bind, read. split; intros H; rewrite H.
  - simpl. unfold myCollegeDisabled in H.
    apply orb_false_iff in H. destruct H as [_ H].
    apply negb_false_iff in H.
    split; [reflexivity | split].
    + unfold warning. simpl. now rewrite H.
    + intros p Hp. unfold filteredProjects, visible in Hp. simpl in Hp.
      apply filter_In in Hp. destruct Hp as [_ Hk].
      unfold keep in Hk. rewrite H in Hk. simpl in Hk.
      destruct (userCollege s) as [c|]; [|discriminate].
      destruct (Filter_eqb (filter s) women); simpl in Hk.
      * apply andb_true_iff in Hk. destruct Hk as [Hk _].
        apply String.eqb_eq in Hk. now subst.
      * apply String.eqb_eq in Hk. now subst.
  - reflexivity.
Qed.

Lemma clickMyCollege_effect_witness :
  showMyCollege
    (state_after (clickMyCollege (Some (mkUser "u1"))) Sample.online Sample.resolved)
  = true.
Proof.
  apply (proj1 (@clickMyCollege_effect JsString.ascii_toLowerCase Sample.online
                  (Some (mkUser "u1")) Sample.resolved) eq_refl).
Defined.

(** X30. With the toggle on and the My College button enabled, a click on
    All Projects followed by a click on My College brings the page back to
    the state it was in. *)
Theorem toggle_round_trip env currentUser s :
  showMyCollege s = true ->
  myCollegeDisabled currentUser s = false ->
  state_after (clickAllProjects ;; clickMyCollege currentUser) env s = s.
Proof.
  intros Ht Hd.
  unfold state_after, bind, clickAllProjects, clickMyCollege, bind, read,
    setShowMyCollege. simpl.
  replace (myCollegeDisabled currentUser _) with false. simpl.
  destruct s; simpl in *. now subst.
Qed.

Lemma toggle_round_trip_witness :
  state_after (clickAllProjects ;; clickMyCollege (Some (mkUser "u1")))
    Sample.online (mkState Sample.feed false "" all (Some "X") true)
  = mkState Sample.feed false "" all (Some "X") true.
Proof.
  apply (@toggle_round_trip Sample.online (Some (mkUser "u1"))
           (mkState Sample.feed false "" all (Some "X") true));
    reflexivity.
Defined.
